(** * WAKEE.reloaded API: the request-to-decision pipeline of [app.py]

    A shallow embedding of the three POST routes of [app.py] ([/test],
    [/predict], [/backup]), of the threshold cascade both classification
    routes embed, and of the per-route request budget declared by the
    [@limiter.limit] decorators, followed by the properties the
    specification states about them.

    Python floats are IEEE binary64 values, so scores are primitive floats
    and the thresholds are the same literals as in the source. *)

From Stdlib Require Import ZArith List String Ascii Floats Lia.
From Stdlib.Strings Require Import Byte.
From stdpp Require Import base option list gmap strings.

(* 0.61 and 1.05 are read as the nearest binary64 value, as Python reads them. *)
Set Warnings "-inexact-float".

(** ** Python values and exceptions *)

Module Py.

(** A raised exception, seen through what the handlers use of it: its class
    and the text [str(exc)] that an f-string interpolates. Only instances of
    [Exception] are modelled, which is what [except Exception] catches. *)
Record exn := Exn { exc_class : string; exc_str : string }.

(** The result of running Python code: a value, or a raised exception. *)
Inductive result (A : Type) : Type :=
| Ok (a : A)
| Raise (e : exn).
Arguments Ok {A} a.
Arguments Raise {A} e.

Definition bind {A B} (m : result A) (k : A -> result B) : result B :=
  match m with
  | Ok a => k a
  | Raise e => Raise e
  end.

Definition IndexError : exn := Exn "IndexError" "list index out of range".

Definition KeyError (k : string) : exn := Exn "KeyError" ("'" +:+ k +:+ "'").

(** [l[i]] on a list, for a non-negative index. *)
Definition getitem {A} (l : list A) (i : nat) : result A :=
  match l !! i with
  | Some x => Ok x
  | None => Raise IndexError
  end.

(** [d[k]] on a dict keyed by strings. *)
Definition dict_getitem {A} (d : gmap string A) (k : string) : result A :=
  match d !! k with
  | Some x => Ok x
  | None => Raise (KeyError k)
  end.

(** [a > b] on floats. *)
Definition gtb (a b : float) : bool := (b <? a)%float.

(** [a >= b] on floats. *)
Definition geb (a b : float) : bool := (b <=? a)%float.

End Py.

#[global] Instance result_ret : MRet Py.result := @Py.Ok.
#[global] Instance result_bind : MBind Py.result := fun A B k m => Py.bind m k.
Notation "a >? b" := (Py.gtb a b) (at level 70) : float_scope.
Notation "a >=? b" := (Py.geb a b) (at level 70) : float_scope.

(** ** Requests and responses *)

Inductive Route := Test | Predict | Backup.

#[global] Instance Route_eq_dec : EqDecision Route.
Proof. solve_decision. Defined.

#[global] Instance Route_countable : Countable Route.
Proof.
  refine (inj_countable'
            (fun r => match r with Test => 0 | Predict => 1 | Backup => 2 end)
            (fun n => match n with 0 => Test | 1 => Predict | _ => Backup end) _).
  intros []; reflexivity.
Defined.

(** An incoming POST request: the route it is addressed to, the remote
    address the limiter keys on, the header list (names in lower case, as
    the server hands them over) and the raw body. *)
Record Request := {
  route : Route;
  remote_address : string;
  headers : list (string * string);
  body : list byte
}.

(** [request.headers[key]]: the value of the first header named [key]. *)
Fixpoint headers_lookup (hs : list (string * string)) (key : string) : option string :=
  match hs with
  | [] => None
  | (k, v) :: hs' => if String.eqb k key then Some v else headers_lookup hs' key
  end.

(** [request.headers.get(key, d)]: that value, or [d] when there is none. *)
Definition headers_get (hs : list (string * string)) (key d : string) : string :=
  default d (headers_lookup hs key).

Record Response := {
  status_code : nat;
  content : list byte;
  media_type : string
}.

(** [Response(content=..., media_type=...)]: the status code defaults to 200. *)
Definition new_Response (content : list byte) (media_type : string) : Response :=
  {| status_code := 200; content := content; media_type := media_type |}.

(** [HTMLResponse(s)], the [response_class] of every route. *)
Definition HTMLResponse (s : string) : Response :=
  new_Response (list_byte_of_string s) "text/html".

(** What a route function hands back to the framework: a [str], a ready
    [Response], or (on the error path of [/backup]) an exception object. *)
Inductive py_return :=
| RetStr (s : string)
| RetResponse (r : Response)
| RetExc (e : Py.exn).

(** The response sent for a returned value: a [Response] goes out as it is,
    a [str] becomes the body of an [HTMLResponse]; an exception object is
    neither, and nothing is rendered from it. *)
Definition respond (r : py_return) : option Response :=
  match r with
  | RetStr s => Some (HTMLResponse s)
  | RetResponse resp => Some resp
  | RetExc _ => None
  end.

Definition nl : string := String (ascii_of_nat 10) EmptyString.

(** ** Scores and labels *)

(** The four scores of one image, in the order the classifier gives them. *)
Record ScoreVector := {
  boredom : float;
  confusion : float;
  engagement : float;
  frustration : float
}.

(** The score row a [ScoreVector] stands for. *)
Definition to_row (s : ScoreVector) : list float :=
  [boredom s; confusion s; engagement s; frustration s].

Inductive DriftLabel := Disengagement | Frustration | Confusion | Boredom | NoDrift.

#[global] Instance DriftLabel_eq_dec : EqDecision DriftLabel.
Proof. solve_decision. Defined.

(** The guard under which each branch of the [if]/[elif] chain of the two
    handlers is the one taken: its own test holds and every earlier test
    failed. *)
Definition fires (l : DriftLabel) (s : ScoreVector) : bool :=
  match l with
  | Disengagement => (engagement s <? 2.5)%float
  | Frustration =>
      negb (engagement s <? 2.5)%float && (frustration s >? 0.5)%float
  | Confusion =>
      negb (engagement s <? 2.5)%float && negb (frustration s >? 0.5)%float
      && (confusion s >? 0.61)%float
  | Boredom =>
      negb (engagement s <? 2.5)%float && negb (frustration s >? 0.5)%float
      && negb (confusion s >? 0.61)%float && (boredom s >? 1.05)%float
  | NoDrift =>
      negb (engagement s <? 2.5)%float && negb (frustration s >? 0.5)%float
      && negb (confusion s >? 0.61)%float && negb (boredom s >? 1.05)%float
  end.

(** The Drift Policy Engine as section 4.3 of the specification words it:
    an ordered cascade, first match wins. The handlers are compared with it. *)
Definition policy_engine (s : ScoreVector) : DriftLabel :=
  if (engagement s <? 2.5)%float then Disengagement
  else if (frustration s >? 0.5)%float then Frustration
  else if (confusion s >? 0.61)%float then Confusion
  else if (boredom s >? 1.05)%float then Boredom
  else NoDrift.

(** The static message [/backup] returns in each branch. *)
Definition backup_message (l : DriftLabel) : string :=
  match l with
  | Disengagement => "Disengagement: careful, you're losing focus!"
  | Frustration => "Frustration: maybe it's time for a pause?"
  | Confusion => "Confusion: ask someone else's opinion on what you do not understand?"
  | Boredom => "Boredom: a short walk to get back into things!"
  | NoDrift => "Good news: no cognitive drift recognized!"
  end.

(** The label string [/predict] passes to the recommendation generator in
    each drift branch. *)
Definition llm_context (l : DriftLabel) : option string :=
  match l with
  | Disengagement => Some "disengagement"
  | Frustration => Some "frustration"
  | Confusion => Some "confusion"
  | Boredom => Some "boredom"
  | NoDrift => None
  end.

(** [s] occurs in [t]. *)
Definition occurs_in (s t : string) : Prop :=
  exists pre post : string, t = pre +:+ s +:+ post.

(** ** The route functions *)

Module Handlers.

Section Routes.

(** The collaborators [app.py] imports: PIL's image decoder and the [cnn]
    and [llm] modules. [get_emotion] returns a batch of score rows (the
    handlers read row 0 and turn it into a list). *)
Variable Image : Type.
Variable Image_open_convert : list byte -> Py.result Image.
Variable get_emotion : Image -> Py.result (list (list float)).
Variable get_recommendation : string -> Py.result string.

(** [check_request], route [/test]. *)
Definition check_request (request : Request) : Response :=
  let body := body request in
  new_Response body
    (headers_get (headers request) "content-type" "application/octet-stream").

(** The [try] block of [analyze_drift]. *)
Definition analyze_drift_try (body : list byte) : Py.result string :=
  pilimage ← Image_open_convert body;
  batch ← get_emotion pilimage;
  cnn_predict ← Py.getitem batch 0;
  v_boredom ← Py.getitem cnn_predict 0;
  v_confusion ← Py.getitem cnn_predict 1;
  v_engagement ← Py.getitem cnn_predict 2;
  v_frustration ← Py.getitem cnn_predict 3;
  let dict_cnn : gmap string float :=
    <["frustration" := v_frustration]> (<["engagement" := v_engagement]>
      (<["confusion" := v_confusion]> (<["boredom" := v_boredom]> ∅))) in
  cnn_engagement ← Py.dict_getitem dict_cnn "engagement";
  cnn_boredom ← Py.dict_getitem dict_cnn "boredom";
  cnn_confusion ← Py.dict_getitem dict_cnn "confusion";
  cnn_frustration ← Py.dict_getitem dict_cnn "frustration";
  if (cnn_engagement <? 2.5)%float then get_recommendation "disengagement"
  else if (cnn_frustration >? 0.5)%float then get_recommendation "frustration"
  else if (cnn_confusion >? 0.61)%float then get_recommendation "confusion"
  else if (cnn_boredom >? 1.05)%float then get_recommendation "boredom"
  else Py.Ok "Good news, no cognitive drift recognized!".

(** [analyze_drift], route [/predict]. *)
Definition analyze_drift (request : Request) : py_return :=
  let body := body request in
  match analyze_drift_try body with
  | Py.Ok s => RetStr s
  | Py.Raise exc =>
      RetStr ("Error in the process! Please use /backup endpoint for now. Displaying error message:"
              +:+ nl +:+ Py.exc_str exc)
  end.

(** The [try] block of [backup_analysis]. *)
Definition backup_analysis_try (body : list byte) : Py.result string :=
  pilimage ← Image_open_convert body;
  batch ← get_emotion pilimage;
  cnn_predict ← Py.getitem batch 0;
  v_boredom ← Py.getitem cnn_predict 0;
  v_confusion ← Py.getitem cnn_predict 1;
  v_engagement ← Py.getitem cnn_predict 2;
  v_frustration ← Py.getitem cnn_predict 3;
  let dict_cnn : gmap string float :=
    <["frustration" := v_frustration]> (<["engagement" := v_engagement]>
      (<["confusion" := v_confusion]> (<["boredom" := v_boredom]> ∅))) in
  cnn_engagement ← Py.dict_getitem dict_cnn "engagement";
  cnn_boredom ← Py.dict_getitem dict_cnn "boredom";
  cnn_confusion ← Py.dict_getitem dict_cnn "confusion";
  cnn_frustration ← Py.dict_getitem dict_cnn "frustration";
  if (cnn_engagement <? 2.5)%float then Py.Ok "Disengagement: careful, you're losing focus!"
  else if (cnn_frustration >? 0.5)%float then Py.Ok "Frustration: maybe it's time for a pause?"
  else if (cnn_confusion >? 0.61)%float then
    Py.Ok "Confusion: ask someone else's opinion on what you do not understand?"
  else if (cnn_boredom >? 1.05)%float then Py.Ok "Boredom: a short walk to get back into things!"
  else Py.Ok "Good news: no cognitive drift recognized!".

(** [backup_analysis], route [/backup]. *)
Definition backup_analysis (request : Request) : py_return :=
  let body := body request in
  match backup_analysis_try body with
  | Py.Ok s => RetStr s
  | Py.Raise exc => RetExc exc
  end.

(** What [/predict] evaluates to in each branch: the generator's answer for
    the branch's label, or the fixed message when no drift is recognized. *)
Definition predict_outcome (l : DriftLabel) : Py.result string :=
  match llm_context l with
  | Some label => get_recommendation label
  | None => Py.Ok "Good news, no cognitive drift recognized!"
  end.

(** The diagnostic [/predict] answers with when its [try] block raised. *)
Definition predict_error_message (exc : Py.exn) : string :=
  "Error in the process! Please use /backup endpoint for now. Displaying error message:"
  +:+ nl +:+ Py.exc_str exc.

(** One of the three steps of the pipeline raises [exc] on this payload:
    the image decoder, the classifier, or the recommendation generator
    called with the label of the branch taken. *)
Inductive step_raises (payload : list byte) (exc : Py.exn) : Prop :=
| decoder_raises :
    Image_open_convert payload = Py.Raise exc ->
    step_raises payload exc
| classifier_raises (img : Image) :
    Image_open_convert payload = Py.Ok img ->
    get_emotion img = Py.Raise exc ->
    step_raises payload exc
| generator_raises (img : Image) (s : ScoreVector) (rest : list (list float))
    (label : string) :
    Image_open_convert payload = Py.Ok img ->
    get_emotion img = Py.Ok (to_row s :: rest) ->
    llm_context (policy_engine s) = Some label ->
    get_recommendation label = Py.Raise exc ->
    step_raises payload exc.

(** The route table built by the [@app.post] decorators. *)
Definition dispatch (request : Request) : py_return :=
  match route request with
  | Test => RetResponse (check_request request)
  | Predict => analyze_drift request
  | Backup => backup_analysis request
  end.

End Routes.

End Handlers.

(** ** Admission control *)

Module Limiter.

(** The budget a [@limiter.limit] decorator declares. *)
Record RateLimitBudget := {
  max_requests : nat;
  window_duration : Z
}.

(** ["5/minute"] on [/test], ["2/minute"] on [/predict] and [/backup];
    durations in seconds. *)
Definition budget (r : Route) : RateLimitBudget :=
  match r with
  | Test => {| max_requests := 5; window_duration := 60 |}
  | Predict => {| max_requests := 2; window_duration := 60 |}
  | Backup => {| max_requests := 2; window_duration := 60 |}
  end.

(** Modelled from the spec: the [(count, window_start)] pair the
    ClientWindowState of section 3 keeps per client and route (the limiter's
    storage is not part of the sources). *)
Record ClientWindow := {
  count : nat;
  window_start : Z
}.

(** Modelled from the spec: the window a request at time [now] falls in
    (section 4.5; the limiter behind the decorators is the rate-limiting
    package, its code is not part of the sources). A client never seen on
    the route opens a window at [now]; a window whose duration has elapsed
    rolls over: the count is reset to zero and the start re-anchored. *)
Definition current_window (st : gmap (Route * string) ClientWindow)
    (r : Route) (client : string) (now : Z) : ClientWindow :=
  match st !! (r, client) with
  | Some w =>
      if (window_start w + window_duration (budget r) <=? now)%Z
      then {| count := 0; window_start := now |}
      else w
  | None => {| count := 0; window_start := now |}
  end.

(** Modelled from the spec: the Admission Controller of section 4.5. If the
    count within the current window is at or above the route's
    [max_requests] the request is rejected; otherwise the count is
    incremented and the request proceeds. The boolean is the decision. *)
Definition consult (st : gmap (Route * string) ClientWindow)
    (r : Route) (client : string) (now : Z)
  : gmap (Route * string) ClientWindow * bool :=
  let w := current_window st r client now in
  if (max_requests (budget r) <=? count w)%nat
  then (<[(r, client) := w]> st, false)
  else (<[(r, client) := {| count := S (count w); window_start := window_start w |}]> st,
        true).

(** No window of this client on this route is open at time [t0]: the
    client was never seen there, or its last window has elapsed. *)
Definition no_open_window (st : gmap (Route * string) ClientWindow)
    (r : Route) (client : string) (t0 : Z) : Prop :=
  match st !! (r, client) with
  | Some w => (window_start w + window_duration (budget r) <= t0)%Z
  | None => True
  end.

(** [n] requests of the client have been counted in the window that
    contains the times from [t0] on: at any such time the current window
    holds [n], capped at the budget, and does not start before [t0]. *)
Definition counted (st : gmap (Route * string) ClientWindow)
    (r : Route) (client : string) (t0 : Z) (n : nat) : Prop :=
  forall t, (t0 <= t < t0 + window_duration (budget r))%Z ->
    count (current_window st r client t) = n `min` max_requests (budget r)
    /\ (t0 <= window_start (current_window st r client t))%Z.

(** Every stored counter is within its route's budget. *)
Definition within_budget (st : gmap (Route * string) ClientWindow) : Prop :=
  forall r client w, st !! (r, client) = Some w -> count w <= max_requests (budget r).

End Limiter.

(** ** The application: admission, then the route function *)

(** What the client gets: the rate-limit rejection (status 429), or whatever
    the route function returned. *)
Inductive Outcome :=
| RateLimitExceeded
| Served (r : py_return).

Definition HTTP_429_TOO_MANY_REQUESTS : nat := 429.

(** The status code of the response, when the returned value yields one. *)
Definition status_of (o : Outcome) : option nat :=
  match o with
  | RateLimitExceeded => Some HTTP_429_TOO_MANY_REQUESTS
  | Served r => status_code <$> respond r
  end.

Module Server.

Section App.

Variable Image : Type.
Variable Image_open_convert : list byte -> Py.result Image.
Variable get_emotion : Image -> Py.result (list (list float)).
Variable get_recommendation : string -> Py.result string.

(** One request arriving at time [now]: the limiter decides on the remote
    address before the route function runs. *)
Definition serve (st : gmap (Route * string) Limiter.ClientWindow)
    (now : Z) (request : Request)
  : gmap (Route * string) Limiter.ClientWindow * Outcome :=
  let '(st', allowed) :=
    Limiter.consult st (route request) (remote_address request) now in
  (st',
   if allowed
   then Served (Handlers.dispatch Image Image_open_convert get_emotion get_recommendation request)
   else RateLimitExceeded).

(** A stream of timed requests, served in order. *)
Fixpoint serve_all (st : gmap (Route * string) Limiter.ClientWindow)
    (arrivals : list (Z * Request))
  : gmap (Route * string) Limiter.ClientWindow * list Outcome :=
  match arrivals with
  | [] => (st, [])
  | (now, request) :: rest =>
      let '(st1, o) := serve st now request in
      let '(st2, os) := serve_all st1 rest in
      (st2, o :: os)
  end.

(** What the request of rank [n + j] of a client to route [r] gets inside
    one window, [n] of its requests having been counted already: the route
    function's answer while the rank is below the budget, the rejection
    from then on. *)
Definition nth_outcome (r : Route) (n j : nat) (a : Z * Request) : Outcome :=
  if bool_decide (n + j < Limiter.max_requests (Limiter.budget r))
  then Served (Handlers.dispatch Image Image_open_convert get_emotion get_recommendation a.2)
  else RateLimitExceeded.

End App.

End Server.

(** The arrival is a request of [client] to route [r]. *)
Definition from_client (r : Route) (client : string) (a : Z * Request) : Prop :=
  route a.2 = r /\ remote_address a.2 = client.

#[global] Instance from_client_dec r client a : Decision (from_client r client a).
Proof. unfold from_client. apply _. Defined.

(** The outcomes, among those of a served stream, of the requests of
    [client] to route [r]. *)
Definition outcomes_for (r : Route) (client : string)
    (arrivals : list (Z * Request)) (outcomes : list Outcome) : list Outcome :=
  (filter (fun p => from_client r client p.1) (zip arrivals outcomes)).*2.

(** The request was let through to its route function. *)
Definition is_served (o : Outcome) : bool :=
  match o with
  | Served _ => true
  | RateLimitExceeded => false
  end.

(** ** Sample collaborators and requests, for the concrete instances below *)

Module Sample.

(** A decoder that rejects the empty payload, as PIL does. *)
Definition open_image (payload : list byte) : Py.result unit :=
  match payload with
  | [] => Py.Raise (Py.Exn "UnidentifiedImageError" "cannot identify image file")
  | _ => Py.Ok tt
  end.

(** A classifier that answers one fixed row. *)
Definition classifier (row : list float) (_ : unit) : Py.result (list (list float)) :=
  Py.Ok [row].

Definition recommend (label : string) : Py.result string :=
  Py.Ok ("Take a break: " +:+ label).

Definition post (r : Route) (hs : list (string * string)) (payload : string) : Request :=
  {| route := r; remote_address := "203.0.113.7"; headers := hs;
     body := list_byte_of_string payload |}.

Definition jpeg (r : Route) : Request :=
  post r [("content-type", "image/jpeg")] "JFIF".

Definition scores (b c e f : float) : ScoreVector :=
  {| boredom := b; confusion := c; engagement := e; frustration := f |}.

(** Scores on which no drift test holds. *)
Definition calm : ScoreVector := scores 0 0 3 0.

(** A row with one entry too many, and a row with two entries missing. *)
Definition long_row : list float := [0; 0; 0; 0; 9]%float.
Definition short_row : list float := [0; 0]%float.

(** The request with the empty payload. *)
Definition empty (r : Route) : Request := post r [] "".

(** Three requests to [/predict] at seconds 0, 10 and 20, and one of another
    client at second 5. *)
Definition burst : list (Z * Request) :=
  [(0%Z, jpeg Predict);
   (5%Z, {| route := Predict; remote_address := "198.51.100.2";
            headers := []; body := [] |});
   (10%Z, jpeg Predict);
   (20%Z, jpeg Predict)].

End Sample.

(** ** The steps the two handlers share *)

Module Shared.

Section Steps.

Variable Image : Type.
Variable Image_open_convert : list byte -> Py.result Image.
Variable get_emotion : Image -> Py.result (list (list float)).

(** The statements both [try] blocks open with ([app.py] lines 136-142 and
    163-169): decode the payload, classify the image, take row 0 of the
    batch and read its entries 0 to 3 as the four named scores. *)
Definition read_scores (payload : list byte) : Py.result ScoreVector :=
  pilimage ← Image_open_convert payload;
  batch ← get_emotion pilimage;
  cnn_predict ← Py.getitem batch 0;
  v_boredom ← Py.getitem cnn_predict 0;
  v_confusion ← Py.getitem cnn_predict 1;
  v_engagement ← Py.getitem cnn_predict 2;
  v_frustration ← Py.getitem cnn_predict 3;
  mret {| boredom := v_boredom; confusion := v_confusion;
          engagement := v_engagement; frustration := v_frustration |}.

End Steps.

End Shared.


(** Further sample data. *)
Module Fixture.

(** A generator that is down. *)
Definition generator_down (label : string) : Py.result string :=
  Py.Raise (Py.Exn "ConnectionError" "generator unreachable").

(** A generator that ignores its label. *)
Definition generator_flat (label : string) : Py.result string :=
  Py.Ok "Stay with it.".


(** Scores that are all NaN, and scores that sit on the four thresholds. *)
Definition all_nan : ScoreVector := Sample.scores nan nan nan nan.
Definition on_thresholds : ScoreVector := Sample.scores 1.05 0.61 2.5 0.5.

(** Scores with frustration above its threshold. *)
Definition frustrated : ScoreVector := Sample.scores 0 0 3 0.9.

(** Scores whose engagement is NaN and whose boredom is high. *)
Definition nan_engagement : ScoreVector := Sample.scores 2 0 nan 0.

(** A generator that knows the four labels and nothing else. *)
Definition generator_strict (label : string) : Py.result string :=
  if (String.eqb label "disengagement" || String.eqb label "frustration"
      || String.eqb label "confusion" || String.eqb label "boredom")%bool
  then Sample.recommend label
  else Py.Raise (Py.Exn "ValueError" "unknown label").

End Fixture.

(** ** The Content-Type header of a response *)

(** [c.lower()] on an ASCII letter; other characters are left alone (the
    non-ASCII letters of a header value lower to non-ASCII ones, which does
    not bear on where ["charset="] occurs). *)
Definition ascii_lower (c : ascii) : ascii :=
  let n := nat_of_ascii c in
  if (65 <=? n)%nat && (n <=? 90)%nat then ascii_of_nat (n + 32) else c.

(** [s.lower()]. *)
Fixpoint lower (s : string) : string :=
  match s with
  | EmptyString => EmptyString
  | String c s' => String (ascii_lower c) (lower s')
  end.

(** [s.startswith(p)]. *)
Fixpoint startswith (s p : string) {struct p} : bool :=
  match p with
  | EmptyString => true
  | String a p' =>
      match s with
      | EmptyString => false
      | String b s' => Ascii.eqb a b && startswith s' p'
      end
  end.

(** [needle in hay]. *)
Fixpoint str_in (needle hay : string) : bool :=
  startswith hay needle
  || match hay with
     | EmptyString => false
     | String _ hay' => str_in needle hay'
     end.

(** The Content-Type header a [Response] is sent with (the framework's
    [Response.init_headers], with the default charset): the media type, to
    which ["; charset=utf-8"] is appended when it starts with ["text/"] and
    names no charset. *)
Definition content_type_header (r : Response) : string :=
  let content_type := media_type r in
  if startswith content_type "text/" && negb (str_in "charset=" (lower content_type))
  then content_type +:+ "; charset=utf-8"
  else content_type.

(** [p] is how [s] begins. *)
Definition begins_with (p s : string) : Prop :=
  exists post : string, s = p +:+ post.

(** ** Two runs of the collaborators *)

(** Two results agree up to the text of the exception: the same value, or
    exceptions of the same class. (The text of a decoder error names the
    buffer object of the call, so it differs from one call to the next.) *)
Definition same_outcome {A} (r1 r2 : Py.result A) : Prop :=
  match r1, r2 with
  | Py.Ok a, Py.Ok b => a = b
  | Py.Raise e1, Py.Raise e2 => Py.exc_class e1 = Py.exc_class e2
  | _, _ => False
  end.

(** Sample data for the second run. *)
Module Rerun.

(** The sample decoder on another call: the same class, another text. *)
Definition open_image (payload : list byte) : Py.result unit :=
  match payload with
  | [] => Py.Raise (Py.Exn "UnidentifiedImageError" "cannot identify image file (again)")
  | _ => Py.Ok tt
  end.

(** The request of the echo test. *)
Definition hello : Request :=
  Sample.post Test [("content-type", "text/plain")] "Hello World !".

End Rerun.

(** * Properties *)

(** ** Float comparisons *)

Lemma SFcompare_antisym (x y : spec_float) :
  SFcompare y x = CompOpp <$> SFcompare x y.
Proof.
  destruct x as [sx|sx| |sx mx ex], y as [sy|sy| |sy my ey];
    try destruct sx; try destruct sy; simpl; try reflexivity.
  all: rewrite (Z.compare_antisym ex ey); destruct (ex ?= ey)%Z; simpl; try reflexivity.
  all: change (Pos.compare_cont Eq mx my) with (mx ?= my)%positive;
    change (Pos.compare_cont Eq my mx) with (my ?= mx)%positive;
    rewrite (Pos.compare_antisym mx my); destruct (mx ?= my)%positive; reflexivity.
Qed.

(** [t <= x] excludes [x < t], also in the presence of NaN. *)
Lemma float_leb_not_ltb (t x : float) :
  (t <=? x)%float = true -> (x <? t)%float = false.
Proof.
  rewrite leb_spec, ltb_spec. unfold SFleb, SFltb.
  rewrite (SFcompare_antisym (Prim2SF t) (Prim2SF x)).
  destruct (SFcompare (Prim2SF t) (Prim2SF x)) as [[ | | ]|]; simpl; congruence.
Qed.

(** ** The cascade inside the two handlers *)

Section Pipeline.

Context (Image : Type)
        (Image_open_convert : list byte -> Py.result Image)
        (get_emotion : Image -> Py.result (list (list float)))
        (get_recommendation : string -> Py.result string).

Abbreviation analyze_drift_try :=
  (Handlers.analyze_drift_try Image Image_open_convert get_emotion get_recommendation).
Abbreviation analyze_drift :=
  (Handlers.analyze_drift Image Image_open_convert get_emotion get_recommendation).
Abbreviation backup_analysis_try :=
  (Handlers.backup_analysis_try Image Image_open_convert get_emotion).
Abbreviation backup_analysis :=
  (Handlers.backup_analysis Image Image_open_convert get_emotion).
Abbreviation predict_outcome := (Handlers.predict_outcome get_recommendation).

(** The dict built from the row gives back the four entries under their
    names. *)
Lemma dict_cnn_lookups (b c e f : float) :
  let dict_cnn : gmap string float :=
    <["frustration" := f]> (<["engagement" := e]>
      (<["confusion" := c]> (<["boredom" := b]> ∅))) in
  Py.dict_getitem dict_cnn "engagement" = Py.Ok e /\
  Py.dict_getitem dict_cnn "boredom" = Py.Ok b /\
  Py.dict_getitem dict_cnn "confusion" = Py.Ok c /\
  Py.dict_getitem dict_cnn "frustration" = Py.Ok f.
Proof.
  intros dict_cnn. unfold Py.dict_getitem, dict_cnn.
  repeat split; by simplify_map_eq.
Qed.

(** On a row with at least four entries, [/predict] is the policy engine
    followed by the branch's outcome; entries past the fourth are not read. *)
Lemma analyze_drift_try_row body img b c e f extra rest :
  Image_open_convert body = Py.Ok img ->
  get_emotion img = Py.Ok ((b :: c :: e :: f :: extra) :: rest) ->
  analyze_drift_try body
  = predict_outcome
      (policy_engine {| boredom := b; confusion := c; engagement := e; frustration := f |}).
Proof.
  intros Hopen Hcnn. unfold Handlers.analyze_drift_try.
  rewrite Hopen. cbn [mbind result_bind Py.bind]. rewrite Hcnn.
  cbn [mbind result_bind Py.bind Py.getitem lookup list_lookup].
  destruct (dict_cnn_lookups b c e f) as (He & Hb & Hc & Hf).
  cbv zeta. rewrite He, Hb, Hc, Hf. cbn [mbind result_bind Py.bind].
  unfold policy_engine, Handlers.predict_outcome. cbn [engagement frustration confusion boredom].
  destruct (e <? 2.5)%float; [reflexivity|].
  destruct (f >? 0.5)%float; [reflexivity|].
  destruct (c >? 0.61)%float; [reflexivity|].
  destruct (b >? 1.05)%float; reflexivity.
Qed.

(** The same for [/backup], whose branches return the static messages. *)
Lemma backup_analysis_try_row body img b c e f extra rest :
  Image_open_convert body = Py.Ok img ->
  get_emotion img = Py.Ok ((b :: c :: e :: f :: extra) :: rest) ->
  backup_analysis_try body
  = Py.Ok (backup_message
      (policy_engine {| boredom := b; confusion := c; engagement := e; frustration := f |})).
Proof.
  intros Hopen Hcnn. unfold Handlers.backup_analysis_try.
  rewrite Hopen. cbn [mbind result_bind Py.bind]. rewrite Hcnn.
  cbn [mbind result_bind Py.bind Py.getitem lookup list_lookup].
  destruct (dict_cnn_lookups b c e f) as (He & Hb & Hc & Hf).
  cbv zeta. rewrite He, Hb, Hc, Hf. cbn [mbind result_bind Py.bind].
  unfold policy_engine. cbn [engagement frustration confusion boredom].
  destruct (e <? 2.5)%float; [reflexivity|].
  destruct (f >? 0.5)%float; [reflexivity|].
  destruct (c >? 0.61)%float; [reflexivity|].
  destruct (b >? 1.05)%float; reflexivity.
Qed.

(** The branch the policy engine names is one whose guard holds, and it is
    the only one. *)
Lemma fires_policy_engine (s : ScoreVector) : fires (policy_engine s) s = true.
Proof.
  unfold policy_engine.
  destruct (engagement s <? 2.5)%float eqn:He, (frustration s >? 0.5)%float eqn:Hf,
    (confusion s >? 0.61)%float eqn:Hc, (boredom s >? 1.05)%float eqn:Hb;
    unfold fires; rewrite ?He, ?Hf, ?Hc, ?Hb; reflexivity.
Qed.

Lemma fires_unique (s : ScoreVector) (l : DriftLabel) :
  fires l s = true -> l = policy_engine s.
Proof.
  unfold policy_engine, fires.
  destruct l, (engagement s <? 2.5)%float, (frustration s >? 0.5)%float,
    (confusion s >? 0.61)%float, (boredom s >? 1.05)%float;
    cbn; congruence.
Qed.

Lemma to_row_cons (s : ScoreVector) :
  to_row s = boredom s :: confusion s :: engagement s :: frustration s :: [].
Proof. reflexivity. Qed.

Lemma analyze_drift_try_scores body img s rest :
  Image_open_convert body = Py.Ok img ->
  get_emotion img = Py.Ok (to_row s :: rest) ->
  analyze_drift_try body = predict_outcome (policy_engine s).
Proof.
  intros Hopen Hcnn. rewrite to_row_cons in Hcnn.
  rewrite (analyze_drift_try_row _ _ _ _ _ _ _ _ Hopen Hcnn). by destruct s.
Qed.

Lemma backup_analysis_try_scores body img s rest :
  Image_open_convert body = Py.Ok img ->
  get_emotion img = Py.Ok (to_row s :: rest) ->
  backup_analysis_try body = Py.Ok (backup_message (policy_engine s)).
Proof.
  intros Hopen Hcnn. rewrite to_row_cons in Hcnn.
  rewrite (backup_analysis_try_row _ _ _ _ _ _ _ _ Hopen Hcnn). by destruct s.
Qed.

Lemma backup_analysis_scores request img s rest :
  Image_open_convert (body request) = Py.Ok img ->
  get_emotion img = Py.Ok (to_row s :: rest) ->
  backup_analysis request = RetStr (backup_message (policy_engine s)).
Proof.
  intros Hopen Hcnn. unfold Handlers.backup_analysis. cbv zeta.
  by rewrite (backup_analysis_try_scores _ _ _ _ Hopen Hcnn).
Qed.

(** C1: when the engagement score is below 2.5 both handlers take the
    disengagement branch, whatever the boredom, confusion and frustration
    scores are: [/predict] asks the generator about ["disengagement"],
    [/backup] returns the disengagement message, and no other branch's guard
    holds. *)
Theorem C1_disengagement_first (request : Request) img (s : ScoreVector) rest :
  Image_open_convert (body request) = Py.Ok img ->
  get_emotion img = Py.Ok (to_row s :: rest) ->
  (engagement s <? 2.5)%float = true ->
  analyze_drift_try (body request) = get_recommendation "disengagement"
  /\ backup_analysis request = RetStr "Disengagement: careful, you're losing focus!"
  /\ (forall l, fires l s = true <-> l = Disengagement).
Proof.
  intros Hopen Hcnn He.
  assert (Hpol : policy_engine s = Disengagement)
    by (unfold policy_engine; by rewrite He).
  split; [|split].
  - rewrite (analyze_drift_try_scores _ _ _ _ Hopen Hcnn), Hpol. reflexivity.
  - rewrite (backup_analysis_scores _ _ _ _ Hopen Hcnn), Hpol. reflexivity.
  - intros l. split.
    + intros Hl. rewrite <- Hpol. by apply fires_unique.
    + intros ->. exact He.
Qed.

(** C2: when the engagement score is at least 2.5 both handlers go through
    the remaining tests in the order frustration, confusion, boredom, and
    the first that holds decides: frustration above 0.5, else confusion
    above 0.61, else boredom above 1.05, else no drift. *)
Theorem C2_remaining_branches_in_order (request : Request) img (s : ScoreVector) rest :
  Image_open_convert (body request) = Py.Ok img ->
  get_emotion img = Py.Ok (to_row s :: rest) ->
  (engagement s >=? 2.5)%float = true ->
  let l :=
    if (frustration s >? 0.5)%float then Frustration
    else if (confusion s >? 0.61)%float then Confusion
    else if (boredom s >? 1.05)%float then Boredom
    else NoDrift in
  analyze_drift_try (body request) = predict_outcome l
  /\ backup_analysis request = RetStr (backup_message l).
Proof.
  intros Hopen Hcnn He l.
  assert (Hpol : policy_engine s = l).
  { unfold policy_engine, l. by rewrite (float_leb_not_ltb _ _ He). }
  rewrite (analyze_drift_try_scores _ _ _ _ Hopen Hcnn).
  rewrite (backup_analysis_scores _ _ _ _ Hopen Hcnn).
  by rewrite Hpol.
Qed.

(** C3: for every four scores exactly one of the five branches fires: some
    label's guard holds, no other label's guard does, and both handlers
    return that branch's outcome. *)
Theorem C3_exactly_one_branch (request : Request) img (s : ScoreVector) rest :
  Image_open_convert (body request) = Py.Ok img ->
  get_emotion img = Py.Ok (to_row s :: rest) ->
  exists l : DriftLabel,
    fires l s = true
    /\ (forall l', fires l' s = true -> l' = l)
    /\ analyze_drift_try (body request) = predict_outcome l
    /\ backup_analysis request = RetStr (backup_message l).
Proof.
  intros Hopen Hcnn. exists (policy_engine s).
  split; [apply fires_policy_engine|].
  split; [intros l'; apply fires_unique|].
  split.
  - exact (analyze_drift_try_scores _ _ _ _ Hopen Hcnn).
  - exact (backup_analysis_scores _ _ _ _ Hopen Hcnn).
Qed.

(** C4 (amended): both handlers select the same label, the one the policy
    engine names, and differ in how it is rendered; when that label is
    [NoDrift] each returns its own fixed message, ["Good news, no cognitive
    drift recognized!"] for [/predict] and ["Good news: no cognitive drift
    recognized!"] for [/backup]. *)
Theorem C4_same_label_own_messages (request : Request) img (s : ScoreVector) rest :
  Image_open_convert (body request) = Py.Ok img ->
  get_emotion img = Py.Ok (to_row s :: rest) ->
  analyze_drift_try (body request) = predict_outcome (policy_engine s)
  /\ backup_analysis_try (body request) = Py.Ok (backup_message (policy_engine s))
  /\ (policy_engine s = NoDrift ->
      analyze_drift request = RetStr "Good news, no cognitive drift recognized!"
      /\ backup_analysis request = RetStr "Good news: no cognitive drift recognized!").
Proof.
  intros Hopen Hcnn.
  pose proof (analyze_drift_try_scores _ _ _ _ Hopen Hcnn) as Hp.
  pose proof (backup_analysis_try_scores _ _ _ _ Hopen Hcnn) as Hb.
  split; [exact Hp|]. split; [exact Hb|].
  intros Hnone. unfold Handlers.analyze_drift, Handlers.backup_analysis. cbv zeta.
  rewrite Hp, Hb, Hnone. split; reflexivity.
Qed.

(** ** Failures inside the [try] blocks *)

Lemma string_app_nil_r (s : string) : s +:+ "" = s.
Proof.
  induction s as [|a s IH]; [reflexivity|].
  change (String a (s +:+ "") = String a s). by rewrite IH.
Qed.

Lemma predict_error_message_backup (exc : Py.exn) :
  occurs_in "/backup" (Handlers.predict_error_message exc).
Proof.
  exists "Error in the process! Please use ".
  exists (" endpoint for now. Displaying error message:" +:+ nl +:+ Py.exc_str exc).
  reflexivity.
Qed.

Lemma predict_error_message_names (exc : Py.exn) :
  occurs_in (Py.exc_str exc) (Handlers.predict_error_message exc).
Proof.
  exists ("Error in the process! Please use /backup endpoint for now. Displaying error message:"
          +:+ nl).
  exists "". rewrite string_app_nil_r. reflexivity.
Qed.

(** An exception raised by any step is what the [try] block of [/predict]
    raises. *)
Lemma analyze_drift_try_raises payload exc :
  Handlers.step_raises Image Image_open_convert get_emotion get_recommendation payload exc ->
  analyze_drift_try payload = Py.Raise exc.
Proof.
  intros [Hopen | img Hopen Hcnn | img s rest label Hopen Hcnn Hlabel Hllm].
  - unfold Handlers.analyze_drift_try. by rewrite Hopen.
  - unfold Handlers.analyze_drift_try. rewrite Hopen. cbn [mbind result_bind Py.bind].
    by rewrite Hcnn.
  - rewrite (analyze_drift_try_scores _ _ _ _ Hopen Hcnn).
    unfold Handlers.predict_outcome. by rewrite Hlabel.
Qed.

Lemma analyze_drift_caught request exc :
  analyze_drift_try (body request) = Py.Raise exc ->
  analyze_drift request = RetStr (Handlers.predict_error_message exc).
Proof.
  intros H. unfold Handlers.analyze_drift. cbv zeta. by rewrite H.
Qed.

Lemma analyze_drift_returns_str request :
  exists msg : string, analyze_drift request = RetStr msg.
Proof.
  unfold Handlers.analyze_drift. cbv zeta.
  destruct (analyze_drift_try (body request)); eauto.
Qed.

Lemma backup_analysis_caught request exc :
  backup_analysis_try (body request) = Py.Raise exc ->
  backup_analysis request = RetExc exc.
Proof.
  intros H. unfold Handlers.backup_analysis. cbv zeta. by rewrite H.
Qed.

(** C5: when the decoder, the classifier or the generator raises, [/predict]
    catches the exception and returns a string, sent with status 200, that
    contains the exception's text and the word [/backup]; the handler
    returns a string on every request. *)
Theorem C5_predict_failures_caught (request : Request) (exc : Py.exn) :
  Handlers.step_raises Image Image_open_convert get_emotion get_recommendation
    (body request) exc ->
  analyze_drift request = RetStr (Handlers.predict_error_message exc)
  /\ respond (analyze_drift request)
     = Some (HTMLResponse (Handlers.predict_error_message exc))
  /\ status_of (Served (analyze_drift request)) = Some 200
  /\ occurs_in "/backup" (Handlers.predict_error_message exc)
  /\ occurs_in (Py.exc_str exc) (Handlers.predict_error_message exc)
  /\ (forall r : Request, exists msg : string, analyze_drift r = RetStr msg).
Proof.
  intros Hstep.
  pose proof (analyze_drift_caught _ _ (analyze_drift_try_raises _ _ Hstep)) as Hret.
  rewrite Hret. repeat split.
  - apply predict_error_message_backup.
  - apply predict_error_message_names.
  - apply analyze_drift_returns_str.
Qed.

(** ** Rows of the wrong length *)

Lemma short_row_raises {A} (row : list float) (k : float -> float -> float -> float -> Py.result A) :
  length row < 4 ->
  (v_boredom ← Py.getitem row 0;
   v_confusion ← Py.getitem row 1;
   v_engagement ← Py.getitem row 2;
   v_frustration ← Py.getitem row 3;
   k v_boredom v_confusion v_engagement v_frustration) = Py.Raise Py.IndexError.
Proof.
  intros Hlen.
  destruct row as [|b [|c [|e [|f extra]]]]; try reflexivity.
  cbn in Hlen. lia.
Qed.

Lemma analyze_drift_try_short body img row rest :
  Image_open_convert body = Py.Ok img ->
  get_emotion img = Py.Ok (row :: rest) ->
  length row < 4 ->
  analyze_drift_try body = Py.Raise Py.IndexError.
Proof.
  intros Hopen Hcnn Hlen. unfold Handlers.analyze_drift_try.
  rewrite Hopen. cbn [mbind result_bind Py.bind]. rewrite Hcnn.
  cbn [mbind result_bind Py.bind Py.getitem lookup list_lookup].
  exact (short_row_raises row _ Hlen).
Qed.

Lemma backup_analysis_try_short body img row rest :
  Image_open_convert body = Py.Ok img ->
  get_emotion img = Py.Ok (row :: rest) ->
  length row < 4 ->
  backup_analysis_try body = Py.Raise Py.IndexError.
Proof.
  intros Hopen Hcnn Hlen. unfold Handlers.backup_analysis_try.
  rewrite Hopen. cbn [mbind result_bind Py.bind]. rewrite Hcnn.
  cbn [mbind result_bind Py.bind Py.getitem lookup list_lookup].
  exact (short_row_raises row _ Hlen).
Qed.

(** C7 (amended): a score row with fewer than 4 entries makes the indexing
    raise [IndexError] inside the [try] block, so no branch of the cascade
    is reached: [/predict] answers with its diagnostic and [/backup] with no
    drift message. A row with more than 4 entries is not rejected: both
    handlers run the cascade on its first four entries. *)
Theorem C7_short_rows_raise_long_rows_pass (request : Request) img row rest :
  Image_open_convert (body request) = Py.Ok img ->
  get_emotion img = Py.Ok (row :: rest) ->
  (length row < 4 ->
     analyze_drift_try (body request) = Py.Raise Py.IndexError
     /\ analyze_drift request = RetStr (Handlers.predict_error_message Py.IndexError)
     /\ backup_analysis_try (body request) = Py.Raise Py.IndexError
     /\ (forall l, backup_analysis request <> RetStr (backup_message l)))
  /\ (forall b c e f extra, row = b :: c :: e :: f :: extra ->
       let s := {| boredom := b; confusion := c; engagement := e; frustration := f |} in
       analyze_drift_try (body request) = predict_outcome (policy_engine s)
       /\ backup_analysis request = RetStr (backup_message (policy_engine s))).
Proof.
  intros Hopen Hcnn. split.
  - intros Hlen.
    pose proof (analyze_drift_try_short _ _ _ _ Hopen Hcnn Hlen) as Hp.
    pose proof (backup_analysis_try_short _ _ _ _ Hopen Hcnn Hlen) as Hb.
    split; [exact Hp|]. split; [by apply analyze_drift_caught|].
    split; [exact Hb|].
    intros l. rewrite (backup_analysis_caught _ _ Hb). discriminate.
  - intros b c e f extra -> s. split.
    + exact (analyze_drift_try_row _ _ _ _ _ _ _ _ Hopen Hcnn).
    + unfold Handlers.backup_analysis. cbv zeta.
      by rewrite (backup_analysis_try_row _ _ _ _ _ _ _ _ Hopen Hcnn).
Qed.

End Pipeline.

(** ** The echo route *)

Lemma startswith_spec (s p : string) : startswith s p = true <-> begins_with p s.
Proof.
  revert s. induction p as [|a p IH]; intros s.
  - split; [intros _; by exists s | intros _; reflexivity].
  - destruct s as [|b s]; cbn [startswith].
    + split; [done | intros [post Hpost]; discriminate Hpost].
    + rewrite andb_true_iff, Ascii.eqb_eq, IH. split.
      * intros [-> [post ->]]. by exists post.
      * intros [post Hpost]. change (String b s = String a (p +:+ post)) in Hpost.
        injection Hpost as -> ->. split; [done | by exists post].
Qed.

Lemma str_in_spec (needle hay : string) :
  str_in needle hay = true <-> occurs_in needle hay.
Proof.
  induction hay as [|c hay IH]; cbn [str_in]; rewrite orb_true_iff, startswith_spec.
  - split.
    + intros [[post H]|H]; [|done]. by exists "", post.
    + intros (pre & post & H). left.
      destruct pre as [|a pre]; [by exists post | discriminate H].
  - rewrite IH. split.
    + intros [[post H]|(pre & post & H)].
      * by exists "", post.
      * exists (String c pre), post. by rewrite H.
    + intros (pre & post & H). destruct pre as [|a pre].
      * left. by exists post.
      * right. change (String c hay = String a (pre +:+ needle +:+ post)) in H.
        injection H as -> ->. by exists pre, post.
Qed.

(** The header is the media type, with the charset appended exactly to the
    text types that name none. *)
Lemma content_type_header_cases (r : Response) :
  (begins_with "text/" (media_type r) ->
   ~ occurs_in "charset=" (lower (media_type r)) ->
   content_type_header r = media_type r +:+ "; charset=utf-8")
  /\ (~ begins_with "text/" (media_type r) \/ occurs_in "charset=" (lower (media_type r)) ->
      content_type_header r = media_type r).
Proof.
  unfold content_type_header. cbv zeta.
  destruct (startswith (media_type r) "text/") eqn:Htext;
    destruct (str_in "charset=" (lower (media_type r))) eqn:Hcs; cbn [andb negb]; split.
  all: try (intros Hb Hn; exfalso; first
              [ apply Hn; by apply str_in_spec
              | apply startswith_spec in Hb; congruence ]).
  all: try reflexivity.
  intros [Hn|Ho].
  - exfalso. apply Hn. by apply startswith_spec.
  - apply str_in_spec in Ho. congruence.
Qed.

(** C8 (amended): a POST to [/test] that the limiter lets through is
    answered with status 200, the request body as the body and the declared
    content type as the media type; the Content-Type header sent is the
    declared value, to which ["; charset=utf-8"] is appended when the
    declared value starts with ["text/"] and contains no ["charset="] in any
    letter case. So [b"Hello World !"] sent as [text/plain] comes back as
    exactly [b"Hello World !"] with Content-Type [text/plain; charset=utf-8]. *)
Theorem C8_test_echoes_body_type_up_to_charset
    (Image : Type) (Image_open_convert : list byte -> Py.result Image)
    (get_emotion : Image -> Py.result (list (list float)))
    (get_recommendation : string -> Py.result string)
    (st st' : gmap (Route * string) Limiter.ClientWindow) (now : Z)
    (request : Request) (ct : string) :
  route request = Test ->
  Limiter.consult st Test (remote_address request) now = (st', true) ->
  headers_lookup (headers request) "content-type" = Some ct ->
  Server.serve Image Image_open_convert get_emotion get_recommendation st now request
  = (st', Served (RetResponse (Handlers.check_request request)))
  /\ content (Handlers.check_request request) = body request
  /\ status_code (Handlers.check_request request) = 200
  /\ media_type (Handlers.check_request request) = ct
  /\ (begins_with "text/" ct -> ~ occurs_in "charset=" (lower ct) ->
      content_type_header (Handlers.check_request request) = ct +:+ "; charset=utf-8")
  /\ (~ begins_with "text/" ct \/ occurs_in "charset=" (lower ct) ->
      content_type_header (Handlers.check_request request) = ct)
  /\ content (Handlers.check_request Rerun.hello) = list_byte_of_string "Hello World !"
  /\ content_type_header (Handlers.check_request Rerun.hello) = "text/plain; charset=utf-8".
Proof.
  intros Hroute Hconsult Hct.
  assert (Hmedia : media_type (Handlers.check_request request) = ct).
  { unfold Handlers.check_request, headers_get. cbv zeta. by rewrite Hct. }
  destruct (content_type_header_cases (Handlers.check_request request)) as [Htext Hother].
  rewrite Hmedia in Htext, Hother.
  split; [|repeat split; assumption].
  unfold Server.serve, Handlers.dispatch. rewrite Hroute, Hconsult. reflexivity.
Qed.

(** C10: without a content-type header the echo is sent as
    [application/octet-stream], the body unchanged. *)
Theorem C10_test_default_media_type (request : Request) :
  headers_lookup (headers request) "content-type" = None ->
  media_type (Handlers.check_request request) = "application/octet-stream"
  /\ content (Handlers.check_request request) = body request.
Proof.
  intros Hct. unfold Handlers.check_request, headers_get. cbv zeta.
  by rewrite Hct.
Qed.

(** ** Admission control *)

Section Admission.

Import Limiter.

Implicit Types (st : gmap (Route * string) ClientWindow) (r : Route) (client : string).

Lemma max_requests_pos r : 0 < max_requests (budget r).
Proof. destruct r; cbn; lia. Qed.

Lemma window_duration_pos r : (0 < window_duration (budget r))%Z.
Proof. destruct r; cbn; lia. Qed.

(** The window of a client is read from that client's entry alone. *)
Lemma current_window_ext st st' r client now :
  st' !! (r, client) = st !! (r, client) ->
  current_window st' r client now = current_window st r client now.
Proof. intros H. unfold current_window. by rewrite H. Qed.

Lemma consult_lookup st r client now :
  (consult st r client now).1 !! (r, client)
  = Some (let w := current_window st r client now in
          if (max_requests (budget r) <=? count w)%nat then w
          else {| count := S (count w); window_start := window_start w |}).
Proof.
  unfold consult. cbv zeta.
  destruct (max_requests (budget r) <=? count (current_window st r client now))%nat;
    cbn; by rewrite lookup_insert_eq.
Qed.

Lemma consult_lookup_ne st r client now r' client' :
  (r, client) <> (r', client') ->
  (consult st r client now).1 !! (r', client') = st !! (r', client').
Proof.
  intros Hne. unfold consult. cbv zeta.
  destruct (max_requests (budget r) <=? count (current_window st r client now))%nat;
    cbn; by rewrite lookup_insert_ne.
Qed.

Lemma consult_decision st r client now :
  (consult st r client now).2
  = bool_decide (count (current_window st r client now) < max_requests (budget r)).
Proof.
  unfold consult. cbv zeta.
  destruct (Nat.leb_spec (max_requests (budget r))
              (count (current_window st r client now))); cbn.
  - rewrite bool_decide_eq_false_2; [reflexivity | lia].
  - rewrite bool_decide_eq_true_2; [reflexivity | lia].
Qed.

(** The counter invariant: the limiter never stores a count above the
    route's budget. *)
Lemma current_window_within_budget st r client now :
  within_budget st ->
  count (current_window st r client now) <= max_requests (budget r).
Proof.
  intros Hst. unfold current_window.
  destruct (st !! (r, client)) as [w|] eqn:Hw; cbn; [|lia].
  destruct (window_start w + window_duration (budget r) <=? now)%Z; cbn; [lia|].
  by apply (Hst r client).
Qed.

Lemma consult_within_budget st r client now :
  within_budget st -> within_budget (consult st r client now).1.
Proof.
  intros Hst r' client' w' Hw'.
  destruct (decide ((r, client) = (r', client'))) as [Heq|Hne].
  - injection Heq as <- <-. rewrite consult_lookup in Hw'. injection Hw' as <-.
    pose proof (current_window_within_budget st r client now Hst) as Hle.
    cbv zeta.
    destruct (Nat.leb_spec (max_requests (budget r))
                (count (current_window st r client now))); cbn; lia.
  - rewrite consult_lookup_ne in Hw' by done. by apply (Hst r' client').
Qed.

Lemma no_open_window_counted st r client t0 :
  no_open_window st r client t0 -> counted st r client t0 0.
Proof.
  unfold no_open_window, counted, current_window. intros Hst t Ht.
  destruct (st !! (r, client)) as [w|]; cbn; [|lia].
  destruct (Z.leb_spec (window_start w + window_duration (budget r)) t); cbn; lia.
Qed.

Lemma consult_counted st r client t0 n t :
  counted st r client t0 n ->
  (t0 <= t < t0 + window_duration (budget r))%Z ->
  (consult st r client t).2 = bool_decide (n < max_requests (budget r))
  /\ counted (consult st r client t).1 r client t0 (S n).
Proof.
  intros Hst Ht. destruct (Hst t Ht) as [Hcount Hstart]. split.
  - rewrite consult_decision, Hcount. apply bool_decide_ext. lia.
  - intros t' Ht'. unfold current_window at 1 2. rewrite consult_lookup. cbv zeta.
    set (w := current_window st r client t) in *.
    destruct (Nat.leb_spec (max_requests (budget r)) (count w));
      cbn [count window_start];
      destruct (Z.leb_spec (window_start w + window_duration (budget r)) t');
      cbn [count window_start]; lia.
Qed.

Lemma consult_counted_ne st r client t0 n r' client' t :
  (r', client') <> (r, client) ->
  counted st r client t0 n ->
  counted (consult st r' client' t).1 r client t0 n.
Proof.
  intros Hne Hst t' Ht'.
  rewrite (current_window_ext st) by (by apply consult_lookup_ne).
  by apply Hst.
Qed.

Context (Image : Type)
        (Image_open_convert : list byte -> Py.result Image)
        (get_emotion : Image -> Py.result (list (list float)))
        (get_recommendation : string -> Py.result string).

Abbreviation dispatch :=
  (Handlers.dispatch Image Image_open_convert get_emotion get_recommendation).
Abbreviation serve :=
  (Server.serve Image Image_open_convert get_emotion get_recommendation).
Abbreviation serve_all :=
  (Server.serve_all Image Image_open_convert get_emotion get_recommendation).
Abbreviation nth_outcome :=
  (Server.nth_outcome Image Image_open_convert get_emotion get_recommendation).

Lemma serve_all_cons st now request rest :
  serve_all st ((now, request) :: rest)
  = let st1 := (consult st (route request) (remote_address request) now).1 in
    ((serve_all st1 rest).1,
     (if (consult st (route request) (remote_address request) now).2
      then Served (dispatch request) else RateLimitExceeded)
     :: (serve_all st1 rest).2).
Proof.
  cbn [Server.serve_all]. unfold Server.serve.
  destruct (consult st (route request) (remote_address request) now) as [st1 d].
  cbn [fst snd]. by destruct (serve_all st1 rest).
Qed.

Lemma serve_all_within_budget st arrivals :
  within_budget st -> within_budget (serve_all st arrivals).1.
Proof.
  revert st. induction arrivals as [|[now request] rest IH]; intros st Hst; [exact Hst|].
  rewrite serve_all_cons. cbn [fst]. apply IH. by apply consult_within_budget.
Qed.

(** The outcomes of one client's requests inside one window are decided by
    their rank alone, whatever other clients and routes do in between. *)
Lemma serve_all_outcomes r client t0 arrivals : forall st n,
  counted st r client t0 n ->
  (forall a, a ∈ arrivals -> from_client r client a ->
     (t0 <= a.1 < t0 + window_duration (budget r))%Z) ->
  outcomes_for r client arrivals (serve_all st arrivals).2
  = imap (nth_outcome r n) (filter (from_client r client) arrivals).
Proof.
  induction arrivals as [|[now request] rest IH]; intros st n Hst Hin; [reflexivity|].
  rewrite serve_all_cons. cbn [snd]. unfold outcomes_for. cbn [zip zip_with].
  destruct (decide (from_client r client (now, request))) as [Hfrom|Hfrom].
  - rewrite !filter_cons_True by done. cbn [fmap list_fmap snd imap].
    destruct Hfrom as [Hr Hc]. cbn [snd] in Hr, Hc. subst r client.
    assert (Hnow : (t0 <= now < t0 + window_duration (budget (route request)))%Z).
    { apply (Hin (now, request)); [left | done]. }
    destruct (consult_counted _ _ _ _ _ _ Hst Hnow) as [Hd Hst1].
    rewrite Hd. f_equal.
    + unfold Server.nth_outcome. by rewrite Nat.add_0_r.
    + fold (outcomes_for (route request) (remote_address request) rest
              (serve_all (consult st (route request) (remote_address request) now).1 rest).2).
      rewrite (IH _ (S n) Hst1) by (intros a Ha; apply Hin; by right).
      apply imap_ext. intros j a _. unfold Server.nth_outcome. cbn.
      by rewrite Nat.add_succ_r.
  - rewrite !filter_cons_False by done.
    fold (outcomes_for r client rest
            (serve_all (consult st (route request) (remote_address request) now).1 rest).2).
    apply IH.
    + apply consult_counted_ne; [|done]. intros Heq. apply Hfrom.
      injection Heq as <- <-. by split.
    + intros a Ha. apply Hin. by right.
Qed.

(** At most [m - n] outcomes of that form are served ones. *)
Lemma nth_outcome_served r (l : list (Z * Request)) : forall n,
  length (filter is_served (imap (nth_outcome r n) l)) <= max_requests (budget r) - n.
Proof.
  induction l as [|a l IH]; intros n; [cbn; lia|].
  cbn [imap]. rewrite (imap_ext _ (nth_outcome r (S n)) l).
  2:{ intros j b _. unfold Server.nth_outcome. cbn. by rewrite Nat.add_succ_r. }
  specialize (IH (S n)). unfold Server.nth_outcome at 1. rewrite Nat.add_0_r.
  case_bool_decide.
  - rewrite filter_cons_True by done. cbn [length]. lia.
  - rewrite filter_cons_False by (cbn; auto). lia.
Qed.

(** C9: the budgets are 5 per window on [/test] and 2 per window on
    [/predict] and [/backup]; the limiter never stores a count above the
    budget; among the requests one client sends to one route inside one
    window, those of rank below [max_requests] reach the route function and
    every later one is rejected with status 429 without the route function
    being run, so at most [max_requests] of them are served. *)
Theorem C9_budget_enforced_per_window r client st (t0 : Z)
    (arrivals : list (Z * Request)) :
  within_budget st ->
  no_open_window st r client t0 ->
  (forall a, a ∈ arrivals -> from_client r client a ->
     (t0 <= a.1 < t0 + window_duration (budget r))%Z) ->
  (max_requests (budget Test) = 5
   /\ max_requests (budget Predict) = 2
   /\ max_requests (budget Backup) = 2)
  /\ within_budget (serve_all st arrivals).1
  /\ outcomes_for r client arrivals (serve_all st arrivals).2
     = imap (nth_outcome r 0) (filter (from_client r client) arrivals)
  /\ length (filter is_served (outcomes_for r client arrivals (serve_all st arrivals).2))
     <= max_requests (budget r)
  /\ status_of RateLimitExceeded = Some 429
  /\ (forall s : string, status_of (Served (RetStr s)) = Some 200).
Proof.
  intros Hbudget Hwin Hin.
  pose proof (serve_all_outcomes r client t0 arrivals st 0
                (no_open_window_counted _ _ _ _ Hwin) Hin) as Hout.
  split; [by repeat split|].
  split; [by apply serve_all_within_budget|].
  split; [exact Hout|].
  split; [|by split].
  rewrite Hout. pose proof (nth_outcome_served r (filter (from_client r client) arrivals) 0).
  lia.
Qed.

End Admission.

(** * Concrete instances *)

(** C6: on the empty payload the decoder raises and [/backup] hands the
    exception object itself back to the framework, not a string: the
    returned value is not the exception's description and no response is
    rendered from it. *)
Theorem C6_backup_returns_exception_object :
  Handlers.backup_analysis unit Sample.open_image
    (Sample.classifier (to_row Sample.calm)) (Sample.empty Backup)
  = RetExc (Py.Exn "UnidentifiedImageError" "cannot identify image file")
  /\ Handlers.backup_analysis unit Sample.open_image
       (Sample.classifier (to_row Sample.calm)) (Sample.empty Backup)
     <> RetStr "cannot identify image file"
  /\ respond (Handlers.backup_analysis unit Sample.open_image
                (Sample.classifier (to_row Sample.calm)) (Sample.empty Backup))
     = None.
Proof. repeat split. discriminate. Qed.

(** C4, as stated, fails: on scores where no test holds the two handlers
    return different strings. *)
Lemma C4_no_drift_messages_differ :
  policy_engine Sample.calm = NoDrift
  /\ Handlers.analyze_drift unit Sample.open_image
       (Sample.classifier (to_row Sample.calm)) Sample.recommend (Sample.jpeg Predict)
     = RetStr "Good news, no cognitive drift recognized!"
  /\ Handlers.backup_analysis unit Sample.open_image
       (Sample.classifier (to_row Sample.calm)) (Sample.jpeg Backup)
     = RetStr "Good news: no cognitive drift recognized!"
  /\ Handlers.analyze_drift unit Sample.open_image
       (Sample.classifier (to_row Sample.calm)) Sample.recommend (Sample.jpeg Predict)
     <> Handlers.backup_analysis unit Sample.open_image
          (Sample.classifier (to_row Sample.calm)) (Sample.jpeg Backup).
Proof. repeat split. vm_compute. discriminate. Qed.

(** C7, as stated, fails: a row of five scores is not rejected, both
    handlers answer from its first four entries. *)
Lemma C7_long_row_reaches_cascade :
  length Sample.long_row = 5
  /\ Handlers.backup_analysis unit Sample.open_image
       (Sample.classifier Sample.long_row) (Sample.jpeg Backup)
     = RetStr "Disengagement: careful, you're losing focus!"
  /\ Handlers.analyze_drift unit Sample.open_image
       (Sample.classifier Sample.long_row) Sample.recommend (Sample.jpeg Predict)
     = RetStr "Take a break: disengagement".
Proof. repeat split. Qed.

(** Low engagement with every other score high: disengagement wins. *)
Lemma C1_disengagement_first_witness :
  Handlers.analyze_drift_try unit Sample.open_image
    (Sample.classifier (to_row (Sample.scores 9 9 1 9))) Sample.recommend
    (body (Sample.jpeg Predict))
  = Sample.recommend "disengagement"
  /\ Handlers.backup_analysis unit Sample.open_image
       (Sample.classifier (to_row (Sample.scores 9 9 1 9))) (Sample.jpeg Predict)
     = RetStr "Disengagement: careful, you're losing focus!"
  /\ (forall l, fires l (Sample.scores 9 9 1 9) = true <-> l = Disengagement).
Proof.
  apply (C1_disengagement_first unit Sample.open_image
           (Sample.classifier (to_row (Sample.scores 9 9 1 9))) Sample.recommend
           (Sample.jpeg Predict) tt (Sample.scores 9 9 1 9) []);
    reflexivity.
Defined.

(** Engagement 3, frustration 0, confusion 0.7: the confusion branch. *)
Lemma C2_remaining_branches_in_order_witness :
  Handlers.analyze_drift_try unit Sample.open_image
    (Sample.classifier (to_row (Sample.scores 9 0.7 3 0))) Sample.recommend
    (body (Sample.jpeg Predict))
  = Handlers.predict_outcome Sample.recommend Confusion
  /\ Handlers.backup_analysis unit Sample.open_image
       (Sample.classifier (to_row (Sample.scores 9 0.7 3 0))) (Sample.jpeg Predict)
     = RetStr (backup_message Confusion).
Proof.
  apply (C2_remaining_branches_in_order unit Sample.open_image
           (Sample.classifier (to_row (Sample.scores 9 0.7 3 0))) Sample.recommend
           (Sample.jpeg Predict) tt (Sample.scores 9 0.7 3 0) []);
    reflexivity.
Defined.

Lemma C3_exactly_one_branch_witness :
  exists l : DriftLabel,
    fires l (Sample.scores 2 0 3 0) = true
    /\ (forall l', fires l' (Sample.scores 2 0 3 0) = true -> l' = l)
    /\ Handlers.analyze_drift_try unit Sample.open_image
         (Sample.classifier (to_row (Sample.scores 2 0 3 0))) Sample.recommend
         (body (Sample.jpeg Predict))
       = Handlers.predict_outcome Sample.recommend l
    /\ Handlers.backup_analysis unit Sample.open_image
         (Sample.classifier (to_row (Sample.scores 2 0 3 0))) (Sample.jpeg Predict)
       = RetStr (backup_message l).
Proof.
  apply (C3_exactly_one_branch unit Sample.open_image
           (Sample.classifier (to_row (Sample.scores 2 0 3 0))) Sample.recommend
           (Sample.jpeg Predict) tt (Sample.scores 2 0 3 0) []);
    reflexivity.
Defined.

Lemma C4_same_label_own_messages_witness :
  Handlers.analyze_drift_try unit Sample.open_image
    (Sample.classifier (to_row Sample.calm)) Sample.recommend (body (Sample.jpeg Predict))
  = Handlers.predict_outcome Sample.recommend (policy_engine Sample.calm)
  /\ Handlers.backup_analysis_try unit Sample.open_image
       (Sample.classifier (to_row Sample.calm)) (body (Sample.jpeg Predict))
     = Py.Ok (backup_message (policy_engine Sample.calm))
  /\ (policy_engine Sample.calm = NoDrift ->
      Handlers.analyze_drift unit Sample.open_image
        (Sample.classifier (to_row Sample.calm)) Sample.recommend (Sample.jpeg Predict)
      = RetStr "Good news, no cognitive drift recognized!"
      /\ Handlers.backup_analysis unit Sample.open_image
           (Sample.classifier (to_row Sample.calm)) (Sample.jpeg Predict)
         = RetStr "Good news: no cognitive drift recognized!").
Proof.
  apply (C4_same_label_own_messages unit Sample.open_image
           (Sample.classifier (to_row Sample.calm)) Sample.recommend
           (Sample.jpeg Predict) tt Sample.calm []);
    reflexivity.
Defined.

(** The empty payload: the decoder raises, [/predict] answers 200 with the
    diagnostic. *)
Lemma C5_predict_failures_caught_witness :
  Handlers.analyze_drift unit Sample.open_image
    (Sample.classifier (to_row Sample.calm)) Sample.recommend (Sample.empty Predict)
  = RetStr (Handlers.predict_error_message
              (Py.Exn "UnidentifiedImageError" "cannot identify image file")).
Proof.
  apply (C5_predict_failures_caught unit Sample.open_image
           (Sample.classifier (to_row Sample.calm)) Sample.recommend
           (Sample.empty Predict)
           (Py.Exn "UnidentifiedImageError" "cannot identify image file")).
  apply Handlers.decoder_raises. reflexivity.
Defined.

(** A row of two scores: [IndexError] in both handlers. *)
Lemma C7_short_rows_raise_long_rows_pass_witness :
  length Sample.short_row < 4
  /\ Handlers.analyze_drift unit Sample.open_image
       (Sample.classifier Sample.short_row) Sample.recommend (Sample.jpeg Predict)
     = RetStr (Handlers.predict_error_message Py.IndexError)
  /\ Handlers.backup_analysis_try unit Sample.open_image
       (Sample.classifier Sample.short_row) (body (Sample.jpeg Predict))
     = Py.Raise Py.IndexError.
Proof.
  assert (Hlen : length Sample.short_row < 4) by (cbn; lia).
  split; [exact Hlen|].
  destruct (C7_short_rows_raise_long_rows_pass unit Sample.open_image
              (Sample.classifier Sample.short_row) Sample.recommend
              (Sample.jpeg Predict) tt Sample.short_row [] eq_refl eq_refl)
    as [Hshort _].
  destruct (Hshort Hlen) as (_ & Hp & Hb & _). split; assumption.
Defined.

(** C8, as stated, fails: the echo of [b"Hello World !"] sent as
    [text/plain] carries the content type [text/plain; charset=utf-8], not
    the declared [text/plain]; the body is the one sent. *)
Lemma C8_text_plain_gets_charset :
  headers_lookup (headers Rerun.hello) "content-type" = Some "text/plain"
  /\ content (Handlers.check_request Rerun.hello) = list_byte_of_string "Hello World !"
  /\ content_type_header (Handlers.check_request Rerun.hello) = "text/plain; charset=utf-8"
  /\ content_type_header (Handlers.check_request Rerun.hello) <> "text/plain".
Proof. repeat split. discriminate. Qed.

(** The first request of a client to [/test], an image sent as
    [image/jpeg]: the header is the declared type. *)
Lemma C8_test_echoes_body_type_up_to_charset_witness :
  (Server.serve unit Sample.open_image (Sample.classifier (to_row Sample.calm))
     Sample.recommend ∅ 0 (Sample.jpeg Test)).2
  = Served (RetResponse (new_Response (list_byte_of_string "JFIF") "image/jpeg"))
  /\ content_type_header (Handlers.check_request (Sample.jpeg Test)) = "image/jpeg".
Proof.
  pose proof (C8_test_echoes_body_type_up_to_charset unit Sample.open_image
                (Sample.classifier (to_row Sample.calm)) Sample.recommend
                ∅ _ 0 (Sample.jpeg Test) "image/jpeg" eq_refl eq_refl eq_refl)
    as (Hserve & _ & _ & _ & _ & Hother & _).
  split; [by rewrite Hserve|].
  apply Hother. left. intros Hb. apply startswith_spec in Hb. discriminate Hb.
Defined.

Lemma C10_test_default_media_type_witness :
  media_type (Handlers.check_request (Sample.empty Test)) = "application/octet-stream"
  /\ content (Handlers.check_request (Sample.empty Test)) = [].
Proof.
  apply (C10_test_default_media_type (Sample.empty Test)). reflexivity.
Defined.

(** Three requests of one client to [/predict] within twenty seconds, a
    request of another client in between: two are served, the third is
    rejected, the other client is unaffected. *)
Lemma C9_budget_enforced_per_window_witness :
  outcomes_for Predict "203.0.113.7" Sample.burst
    (Server.serve_all unit Sample.open_image (Sample.classifier (to_row Sample.calm))
       Sample.recommend ∅ Sample.burst).2
  = [Served (RetStr "Good news, no cognitive drift recognized!");
     Served (RetStr "Good news, no cognitive drift recognized!");
     RateLimitExceeded].
Proof.
  assert (Hbudget : Limiter.within_budget ∅).
  { intros r client w Hw. rewrite lookup_empty in Hw. discriminate. }
  assert (Hwin : Limiter.no_open_window ∅ Predict "203.0.113.7" 0).
  { unfold Limiter.no_open_window. rewrite lookup_empty. exact I. }
  assert (Hin : forall a, a ∈ Sample.burst -> from_client Predict "203.0.113.7" a ->
                  (0 <= a.1 < 0 + Limiter.window_duration (Limiter.budget Predict))%Z).
  { intros a Ha _. unfold Sample.burst in Ha.
    repeat (apply elem_of_cons in Ha as [->|Ha]; [cbn; lia|]).
    by apply elem_of_nil in Ha. }
  destruct (C9_budget_enforced_per_window unit Sample.open_image
              (Sample.classifier (to_row Sample.calm)) Sample.recommend
              Predict "203.0.113.7" ∅ 0 Sample.burst Hbudget Hwin Hin)
    as (_ & _ & Hout & _).
  rewrite Hout. reflexivity.
Defined.

(** * Further properties of the handlers *)

(** ** NaN scores *)

Lemma SFcompare_refl (x : spec_float) :
  x <> S754_nan -> SFcompare x x = Some Eq.
Proof.
  destruct x as [s|s| |s m e]; intros Hx; try congruence; destruct s; cbn;
    try reflexivity.
  all: rewrite Z.compare_refl.
  all: change (Pos.compare_cont Eq m m) with (m ?= m)%positive.
  all: by rewrite Pos.compare_refl.
Qed.

Lemma is_nan_Prim2SF (x : float) : is_nan x = true -> Prim2SF x = S754_nan.
Proof.
  unfold is_nan. rewrite FloatAxioms.eqb_spec. unfold SFeqb.
  destruct (Prim2SF x) as [s|s| |s m e] eqn:Hx; [| |reflexivity|];
    rewrite SFcompare_refl by discriminate; discriminate.
Qed.

(** No comparison with a NaN holds. *)
Lemma ltb_nan_l (x y : float) : is_nan x = true -> (x <? y)%float = false.
Proof.
  intros Hx. rewrite ltb_spec, (is_nan_Prim2SF x Hx). reflexivity.
Qed.

Lemma ltb_nan_r (x y : float) : is_nan y = true -> (x <? y)%float = false.
Proof.
  intros Hy. rewrite ltb_spec, (is_nan_Prim2SF y Hy). unfold SFltb.
  by destruct (Prim2SF x).
Qed.

(** ** Both handlers as the shared steps followed by the cascade *)

Lemma backup_message_inj (l1 l2 : DriftLabel) :
  backup_message l1 = backup_message l2 -> l1 = l2.
Proof. destruct l1, l2; cbn; intros H; try reflexivity; discriminate H. Qed.

Section Coverage.

Context (Image : Type)
        (Image_open_convert : list byte -> Py.result Image)
        (get_emotion : Image -> Py.result (list (list float))).

Abbreviation analyze_drift_try g :=
  (Handlers.analyze_drift_try Image Image_open_convert get_emotion g).
Abbreviation analyze_drift g :=
  (Handlers.analyze_drift Image Image_open_convert get_emotion g).
Abbreviation backup_analysis_try :=
  (Handlers.backup_analysis_try Image Image_open_convert get_emotion).
Abbreviation backup_analysis :=
  (Handlers.backup_analysis Image Image_open_convert get_emotion).
Abbreviation read_scores := (Shared.read_scores Image Image_open_convert get_emotion).

Implicit Types (g : string -> Py.result string) (payload : list byte)
  (request : Request) (s : ScoreVector) (exc : Py.exn).

Lemma read_scores_row payload img b c e f extra rest :
  Image_open_convert payload = Py.Ok img ->
  get_emotion img = Py.Ok ((b :: c :: e :: f :: extra) :: rest) ->
  read_scores payload
  = Py.Ok {| boredom := b; confusion := c; engagement := e; frustration := f |}.
Proof.
  intros Hopen Hcnn. unfold Shared.read_scores. rewrite Hopen.
  cbn [mbind result_bind Py.bind]. rewrite Hcnn. reflexivity.
Qed.

Lemma analyze_drift_try_factor g payload :
  analyze_drift_try g payload
  = (s ← read_scores payload; Handlers.predict_outcome g (policy_engine s)).
Proof.
  destruct (Image_open_convert payload) as [img|e0] eqn:Hopen.
  2:{ unfold Handlers.analyze_drift_try, Shared.read_scores. by rewrite Hopen. }
  destruct (get_emotion img) as [batch|e0] eqn:Hcnn.
  2:{ unfold Handlers.analyze_drift_try, Shared.read_scores. rewrite Hopen.
      cbn [mbind result_bind Py.bind]. by rewrite Hcnn. }
  destruct batch as [|[|b [|c [|e [|f extra]]]] rest].
  6:{ rewrite (analyze_drift_try_row _ _ _ _ _ _ _ _ _ _ _ _ Hopen Hcnn).
      by rewrite (read_scores_row _ _ _ _ _ _ _ _ Hopen Hcnn). }
  all: unfold Handlers.analyze_drift_try, Shared.read_scores; rewrite Hopen;
    cbn [mbind result_bind Py.bind]; by rewrite Hcnn.
Qed.

Lemma backup_analysis_try_factor payload :
  backup_analysis_try payload
  = (s ← read_scores payload; mret (backup_message (policy_engine s))).
Proof.
  destruct (Image_open_convert payload) as [img|e0] eqn:Hopen.
  2:{ unfold Handlers.backup_analysis_try, Shared.read_scores. by rewrite Hopen. }
  destruct (get_emotion img) as [batch|e0] eqn:Hcnn.
  2:{ unfold Handlers.backup_analysis_try, Shared.read_scores. rewrite Hopen.
      cbn [mbind result_bind Py.bind]. by rewrite Hcnn. }
  destruct batch as [|[|b [|c [|e [|f extra]]]] rest].
  6:{ rewrite (backup_analysis_try_row _ _ _ _ _ _ _ _ _ _ _ Hopen Hcnn).
      by rewrite (read_scores_row _ _ _ _ _ _ _ _ Hopen Hcnn). }
  all: unfold Handlers.backup_analysis_try, Shared.read_scores; rewrite Hopen;
    cbn [mbind result_bind Py.bind]; by rewrite Hcnn.
Qed.

(** What [/backup] returns, read from the shared steps. *)
Lemma backup_analysis_cases request :
  match read_scores (body request) with
  | Py.Ok s => backup_analysis request = RetStr (backup_message (policy_engine s))
  | Py.Raise exc => backup_analysis request = RetExc exc
  end.
Proof.
  unfold Handlers.backup_analysis. cbv zeta. rewrite backup_analysis_try_factor.
  by destruct (read_scores (body request)).
Qed.

(** X1: on every payload, failing ones included, each handler is the
    shared steps (decode, classify, index) followed by the policy engine
    and by the handler's own rendering of the label. *)
Theorem X1_handlers_factor_through_policy_engine g payload :
  analyze_drift_try g payload
  = (s ← read_scores payload; Handlers.predict_outcome g (policy_engine s))
  /\ backup_analysis_try payload
     = (s ← read_scores payload; mret (backup_message (policy_engine s))).
Proof. split; [apply analyze_drift_try_factor | apply backup_analysis_try_factor]. Qed.


Lemma backup_analysis_label_iff request img s rest l :
  Image_open_convert (body request) = Py.Ok img ->
  get_emotion img = Py.Ok (to_row s :: rest) ->
  backup_analysis request = RetStr (backup_message l) <-> fires l s = true.
Proof.
  intros Hopen Hcnn.
  rewrite (backup_analysis_scores _ _ _ _ _ _ _ Hopen Hcnn). split.
  - intros [= Heq]. apply backup_message_inj in Heq as <-. apply fires_policy_engine.
  - intros Hl. by rewrite (fires_unique _ _ Hl).
Qed.

(** X5: the five messages of [/backup] are pairwise distinct, so its
    response identifies the branch taken: on a well-formed classifier
    output it is the message of label [l] exactly when the guard of [l]
    holds. *)
Theorem X5_backup_response_identifies_branch request img s rest l :
  Image_open_convert (body request) = Py.Ok img ->
  get_emotion img = Py.Ok (to_row s :: rest) ->
  (backup_analysis request = RetStr (backup_message l) <-> fires l s = true)
  /\ (forall l1 l2, backup_message l1 = backup_message l2 -> l1 = l2).
Proof.
  intros Hopen Hcnn. split.
  - by apply (backup_analysis_label_iff _ img s rest).
  - apply backup_message_inj.
Qed.

(** X6: [/predict] asks the generator about the four label strings and
    nothing else: two generators that agree on ["disengagement"],
    ["frustration"], ["confusion"] and ["boredom"] give the same response
    on every request. *)
Theorem X6_generator_asked_about_four_labels_only g1 g2 :
  g1 "disengagement" = g2 "disengagement" ->
  g1 "frustration" = g2 "frustration" ->
  g1 "confusion" = g2 "confusion" ->
  g1 "boredom" = g2 "boredom" ->
  forall request, analyze_drift g1 request = analyze_drift g2 request.
Proof.
  intros Hd Hf Hc Hb request. unfold Handlers.analyze_drift. cbv zeta.
  rewrite !analyze_drift_try_factor.
  destruct (read_scores (body request)) as [s|e0]; [|reflexivity].
  cbn [mbind result_bind Py.bind]. unfold Handlers.predict_outcome.
  destruct (policy_engine s); cbn [llm_context]; by rewrite ?Hd, ?Hf, ?Hc, ?Hb.
Qed.

(** X7: when [/backup] reports no drift on a payload, [/predict] returns its
    own no-drift message on it whatever the generator does, a failing one
    included. *)
Theorem X7_no_drift_needs_no_generator g request :
  backup_analysis request = RetStr (backup_message NoDrift) ->
  analyze_drift g request = RetStr "Good news, no cognitive drift recognized!".
Proof.
  intros Hb. pose proof (backup_analysis_cases request) as Hcases.
  unfold Handlers.analyze_drift. cbv zeta. rewrite analyze_drift_try_factor.
  destruct (read_scores (body request)) as [s|e0]; rewrite Hb in Hcases;
    [|discriminate].
  injection Hcases as Heq.
  apply (backup_message_inj NoDrift (policy_engine s)) in Heq.
  cbn [mbind result_bind Py.bind]. by rewrite <- Heq.
Qed.


End Coverage.

(** ** The two handlers on the same payload, one run each *)

Lemma same_outcome_refl {A} (r : Py.result A) : same_outcome r r.
Proof. by destruct r. Qed.

(** When the collaborators of two runs agree up to exception text, so do
    the shared steps. *)
Lemma read_scores_same_outcome (Image : Type)
    (open1 open2 : list byte -> Py.result Image)
    (cnn1 cnn2 : Image -> Py.result (list (list float))) (payload : list byte) :
  same_outcome (open1 payload) (open2 payload) ->
  (forall img, same_outcome (cnn1 img) (cnn2 img)) ->
  same_outcome (Shared.read_scores Image open1 cnn1 payload)
               (Shared.read_scores Image open2 cnn2 payload).
Proof.
  intros Hopen Hcnn. unfold Shared.read_scores.
  destruct (open1 payload) as [img|e1], (open2 payload) as [img2|e2];
    cbn in Hopen; try done.
  subst img2. cbn [mbind result_bind Py.bind]. specialize (Hcnn img).
  destruct (cnn1 img) as [batch|e1], (cnn2 img) as [batch2|e2]; cbn in Hcnn; try done.
  subst batch2. apply same_outcome_refl.
Qed.


(** X3: when the [try] block of [/predict] raises, either [/backup] raises
    an exception of the same class on that payload, or [/backup] answers
    with the message of a drift label and it is the generator, asked about
    that label, that raised; the decoder and the classifier of the two runs
    are only required to agree up to the text of their exceptions. *)
Theorem X3_predict_failure_cases (Image : Type)
    (open1 open2 : list byte -> Py.result Image)
    (cnn1 cnn2 : Image -> Py.result (list (list float)))
    (g : string -> Py.result string) (request : Request) (exc1 : Py.exn) :
  same_outcome (open1 (body request)) (open2 (body request)) ->
  (forall img, same_outcome (cnn1 img) (cnn2 img)) ->
  Handlers.analyze_drift_try Image open1 cnn1 g (body request) = Py.Raise exc1 ->
  (exists exc2,
     Py.exc_class exc2 = Py.exc_class exc1
     /\ Handlers.backup_analysis Image open2 cnn2 request = RetExc exc2)
  \/ (exists l label,
        Handlers.backup_analysis Image open2 cnn2 request = RetStr (backup_message l)
        /\ llm_context l = Some label
        /\ g label = Py.Raise exc1).
Proof.
  intros Hopen Hcnn. rewrite analyze_drift_try_factor.
  pose proof (read_scores_same_outcome _ _ _ _ _ _ Hopen Hcnn) as Hsame.
  pose proof (backup_analysis_cases Image open2 cnn2 request) as Hcases.
  destruct (Shared.read_scores Image open1 cnn1 (body request)) as [s1|e1],
    (Shared.read_scores Image open2 cnn2 (body request)) as [s2|e2];
    cbn in Hsame; try done; cbn [mbind result_bind Py.bind].
  - subst s2. unfold Handlers.predict_outcome.
    destruct (llm_context (policy_engine s1)) as [label|] eqn:Hlabel; [|discriminate].
    intros Hg. right. by exists (policy_engine s1), label.
  - intros [= ->]. left. by exists e2.
Qed.

(** ** What the handlers read of the classifier's answer *)

Lemma take4_lookup (r1 r2 : list float) (i : nat) :
  take 4 r1 = take 4 r2 -> i < 4 -> r1 !! i = r2 !! i.
Proof.
  intros H Hi.
  rewrite <- (lookup_take_lt r1 4 i), <- (lookup_take_lt r2 4 i) by lia.
  by rewrite H.
Qed.

Lemma read_scores_first_entries (Image : Type)
    (Image_open_convert : list byte -> Py.result Image)
    (cnn1 cnn2 : Image -> Py.result (list (list float)))
    (payload : list byte) img row1 row2 rest1 rest2 :
  Image_open_convert payload = Py.Ok img ->
  cnn1 img = Py.Ok (row1 :: rest1) ->
  cnn2 img = Py.Ok (row2 :: rest2) ->
  take 4 row1 = take 4 row2 ->
  Shared.read_scores Image Image_open_convert cnn1 payload
  = Shared.read_scores Image Image_open_convert cnn2 payload.
Proof.
  intros Hopen H1 H2 Htake. unfold Shared.read_scores. rewrite Hopen.
  cbn [mbind result_bind Py.bind]. rewrite H1, H2.
  cbn [mbind result_bind Py.bind Py.getitem lookup list_lookup].
  unfold Py.getitem.
  by rewrite (take4_lookup row1 row2 0 Htake), (take4_lookup row1 row2 1 Htake),
    (take4_lookup row1 row2 2 Htake), (take4_lookup row1 row2 3 Htake) by lia.
Qed.

(** X8: only row 0 of the batch and its entries 0 to 3 are read: two
    classifier answers whose first rows agree on their first four positions
    get the same response from each handler, whatever the further rows and
    entries are. *)
Theorem X8_only_first_row_first_four_entries (Image : Type)
    (Image_open_convert : list byte -> Py.result Image)
    (cnn1 cnn2 : Image -> Py.result (list (list float)))
    (g : string -> Py.result string)
    (request : Request) img row1 row2 rest1 rest2 :
  Image_open_convert (body request) = Py.Ok img ->
  cnn1 img = Py.Ok (row1 :: rest1) ->
  cnn2 img = Py.Ok (row2 :: rest2) ->
  take 4 row1 = take 4 row2 ->
  Handlers.analyze_drift Image Image_open_convert cnn1 g request
  = Handlers.analyze_drift Image Image_open_convert cnn2 g request
  /\ Handlers.backup_analysis Image Image_open_convert cnn1 request
     = Handlers.backup_analysis Image Image_open_convert cnn2 request.
Proof.
  intros Hopen H1 H2 Htake.
  pose proof (read_scores_first_entries _ _ _ _ _ _ _ _ _ _ Hopen H1 H2 Htake) as Hread.
  unfold Handlers.analyze_drift, Handlers.backup_analysis. cbv zeta.
  rewrite !analyze_drift_try_factor, !backup_analysis_try_factor.
  by rewrite Hread.
Qed.

(** ** NaN scores and scores on the thresholds *)

Lemma gtb_nan (x t : float) : is_nan x = true -> (x >? t)%float = false.
Proof. intros Hx. unfold Py.gtb. by apply ltb_nan_r. Qed.

(** X10: a NaN engagement score does not count as disengagement: the
    handlers go on to the frustration, confusion and boredom tests as they
    do for an engagement of at least 2.5. *)
Theorem X10_nan_engagement_is_not_disengagement (Image : Type)
    (Image_open_convert : list byte -> Py.result Image)
    (get_emotion : Image -> Py.result (list (list float)))
    (g : string -> Py.result string)
    (request : Request) img (s : ScoreVector) rest :
  Image_open_convert (body request) = Py.Ok img ->
  get_emotion img = Py.Ok (to_row s :: rest) ->
  is_nan (engagement s) = true ->
  let l :=
    if (frustration s >? 0.5)%float then Frustration
    else if (confusion s >? 0.61)%float then Confusion
    else if (boredom s >? 1.05)%float then Boredom
    else NoDrift in
  Handlers.analyze_drift_try Image Image_open_convert get_emotion g (body request)
  = Handlers.predict_outcome g l
  /\ Handlers.backup_analysis Image Image_open_convert get_emotion request
     = RetStr (backup_message l).
Proof.
  intros Hopen Hcnn He l.
  assert (Hpol : policy_engine s = l).
  { unfold policy_engine, l. by rewrite (ltb_nan_l _ _ He). }
  rewrite (analyze_drift_try_scores _ _ _ _ _ _ _ _ Hopen Hcnn).
  rewrite (backup_analysis_scores _ _ _ _ _ _ _ Hopen Hcnn).
  by rewrite Hpol.
Qed.

(** X11: a row of four NaN scores passes every test as false: both
    handlers report that no drift was recognized. *)
Theorem X11_all_nan_scores_report_no_drift (Image : Type)
    (Image_open_convert : list byte -> Py.result Image)
    (get_emotion : Image -> Py.result (list (list float)))
    (g : string -> Py.result string)
    (request : Request) img (s : ScoreVector) rest :
  Image_open_convert (body request) = Py.Ok img ->
  get_emotion img = Py.Ok (to_row s :: rest) ->
  is_nan (boredom s) = true ->
  is_nan (confusion s) = true ->
  is_nan (engagement s) = true ->
  is_nan (frustration s) = true ->
  Handlers.analyze_drift Image Image_open_convert get_emotion g request
  = RetStr "Good news, no cognitive drift recognized!"
  /\ Handlers.backup_analysis Image Image_open_convert get_emotion request
     = RetStr "Good news: no cognitive drift recognized!".
Proof.
  intros Hopen Hcnn Hb Hc He Hf.
  assert (Hpol : policy_engine s = NoDrift).
  { unfold policy_engine.
    by rewrite (ltb_nan_l _ _ He), (gtb_nan _ _ Hf), (gtb_nan _ _ Hc), (gtb_nan _ _ Hb). }
  unfold Handlers.analyze_drift. cbv zeta.
  rewrite (analyze_drift_try_scores _ _ _ _ _ _ _ _ Hopen Hcnn).
  rewrite (backup_analysis_scores _ _ _ _ _ _ _ Hopen Hcnn).
  by rewrite Hpol.
Qed.

(** X12: the thresholds are exclusive: a score equal to its threshold does
    not select its label, whatever the other scores are; with all four
    scores on their thresholds [/backup] reports no drift. *)
Theorem X12_thresholds_are_exclusive (Image : Type)
    (Image_open_convert : list byte -> Py.result Image)
    (get_emotion : Image -> Py.result (list (list float)))
    (request : Request) img (s : ScoreVector) rest :
  Image_open_convert (body request) = Py.Ok img ->
  get_emotion img = Py.Ok (to_row s :: rest) ->
  (engagement s = 2.5%float ->
   Handlers.backup_analysis Image Image_open_convert get_emotion request
   <> RetStr (backup_message Disengagement))
  /\ (frustration s = 0.5%float ->
      Handlers.backup_analysis Image Image_open_convert get_emotion request
      <> RetStr (backup_message Frustration))
  /\ (confusion s = 0.61%float ->
      Handlers.backup_analysis Image Image_open_convert get_emotion request
      <> RetStr (backup_message Confusion))
  /\ (boredom s = 1.05%float ->
      Handlers.backup_analysis Image Image_open_convert get_emotion request
      <> RetStr (backup_message Boredom))
  /\ (engagement s = 2.5%float -> frustration s = 0.5%float ->
      confusion s = 0.61%float -> boredom s = 1.05%float ->
      Handlers.backup_analysis Image Image_open_convert get_emotion request
      = RetStr (backup_message NoDrift)).
Proof.
  intros Hopen Hcnn.
  pose proof (fun l => backup_analysis_label_iff _ _ _ request img s rest l Hopen Hcnn)
    as Hiff.
  repeat split.
  - intros H Hret. apply Hiff in Hret. unfold fires in Hret. rewrite H in Hret.
    discriminate.
  - intros H Hret. apply Hiff in Hret. unfold fires in Hret. rewrite H in Hret.
    by destruct (engagement s <? 2.5)%float.
  - intros H Hret. apply Hiff in Hret. unfold fires in Hret. rewrite H in Hret.
    by destruct (engagement s <? 2.5)%float, (frustration s >? 0.5)%float.
  - intros H Hret. apply Hiff in Hret. unfold fires in Hret. rewrite H in Hret.
    by destruct (engagement s <? 2.5)%float, (frustration s >? 0.5)%float,
      (confusion s >? 0.61)%float.
  - intros He Hf Hc Hb. apply Hiff. unfold fires. by rewrite He, Hf, Hc, Hb.
Qed.

(** ** The echo route, composed with itself *)


(** ** Concrete instances of the further properties *)


(** Frustration recognized while the generator is down: [/backup] still
    answers. *)
Lemma X3_predict_failure_cases_witness :
  (exists exc2,
     Py.exc_class exc2 = "ConnectionError"
     /\ Handlers.backup_analysis unit Rerun.open_image
          (Sample.classifier (to_row Fixture.frustrated)) (Sample.jpeg Predict)
        = RetExc exc2)
  \/ (exists l label,
        Handlers.backup_analysis unit Rerun.open_image
          (Sample.classifier (to_row Fixture.frustrated)) (Sample.jpeg Predict)
        = RetStr (backup_message l)
        /\ llm_context l = Some label
        /\ Fixture.generator_down label
           = Py.Raise (Py.Exn "ConnectionError" "generator unreachable")).
Proof.
  apply (X3_predict_failure_cases unit Sample.open_image Rerun.open_image
           (Sample.classifier (to_row Fixture.frustrated))
           (Sample.classifier (to_row Fixture.frustrated)) Fixture.generator_down
           (Sample.jpeg Predict)
           (Py.Exn "ConnectionError" "generator unreachable")).
  - reflexivity.
  - intros img. reflexivity.
  - reflexivity.
Defined.


Lemma X5_backup_response_identifies_branch_witness :
  Handlers.backup_analysis unit Sample.open_image
    (Sample.classifier (to_row Fixture.frustrated)) (Sample.jpeg Backup)
  = RetStr (backup_message Frustration)
  <-> fires Frustration Fixture.frustrated = true.
Proof.
  apply (X5_backup_response_identifies_branch unit Sample.open_image
           (Sample.classifier (to_row Fixture.frustrated)) (Sample.jpeg Backup)
           tt Fixture.frustrated [] Frustration);
    reflexivity.
Defined.

(** A generator that rejects every other label is as good as one that
    answers them all. *)
Lemma X6_generator_asked_about_four_labels_only_witness :
  Handlers.analyze_drift unit Sample.open_image
    (Sample.classifier (to_row Fixture.frustrated)) Sample.recommend
    (Sample.jpeg Predict)
  = Handlers.analyze_drift unit Sample.open_image
      (Sample.classifier (to_row Fixture.frustrated)) Fixture.generator_strict
      (Sample.jpeg Predict).
Proof.
  apply (X6_generator_asked_about_four_labels_only unit Sample.open_image
           (Sample.classifier (to_row Fixture.frustrated))
           Sample.recommend Fixture.generator_strict
           eq_refl eq_refl eq_refl eq_refl (Sample.jpeg Predict)).
Defined.

Lemma X7_no_drift_needs_no_generator_witness :
  Handlers.analyze_drift unit Sample.open_image
    (Sample.classifier (to_row Sample.calm)) Fixture.generator_down (Sample.jpeg Predict)
  = RetStr "Good news, no cognitive drift recognized!".
Proof.
  apply (X7_no_drift_needs_no_generator unit Sample.open_image
           (Sample.classifier (to_row Sample.calm)) Fixture.generator_down
           (Sample.jpeg Predict)).
  reflexivity.
Defined.

(** The five-entry row and its first four entries, with and without a
    second row in the batch. *)
Lemma X8_only_first_row_first_four_entries_witness :
  Handlers.analyze_drift unit Sample.open_image
    (Sample.classifier Sample.long_row) Sample.recommend (Sample.jpeg Predict)
  = Handlers.analyze_drift unit Sample.open_image
      (fun _ => Py.Ok [take 4 Sample.long_row; Sample.short_row])
      Sample.recommend (Sample.jpeg Predict)
  /\ Handlers.backup_analysis unit Sample.open_image
       (Sample.classifier Sample.long_row) (Sample.jpeg Predict)
     = Handlers.backup_analysis unit Sample.open_image
         (fun _ => Py.Ok [take 4 Sample.long_row; Sample.short_row])
         (Sample.jpeg Predict).
Proof.
  apply (X8_only_first_row_first_four_entries unit Sample.open_image
           (Sample.classifier Sample.long_row)
           (fun _ => Py.Ok [take 4 Sample.long_row; Sample.short_row])
           Sample.recommend (Sample.jpeg Predict) tt
           Sample.long_row (take 4 Sample.long_row) [] [Sample.short_row]);
    reflexivity.
Defined.


(** NaN engagement with boredom 2: the boredom branch. *)
Lemma X10_nan_engagement_is_not_disengagement_witness :
  Handlers.analyze_drift_try unit Sample.open_image
    (Sample.classifier (to_row Fixture.nan_engagement)) Sample.recommend
    (body (Sample.jpeg Predict))
  = Sample.recommend "boredom"
  /\ Handlers.backup_analysis unit Sample.open_image
       (Sample.classifier (to_row Fixture.nan_engagement)) (Sample.jpeg Predict)
     = RetStr "Boredom: a short walk to get back into things!".
Proof.
  apply (X10_nan_engagement_is_not_disengagement unit Sample.open_image
           (Sample.classifier (to_row Fixture.nan_engagement)) Sample.recommend
           (Sample.jpeg Predict) tt Fixture.nan_engagement []);
    reflexivity.
Defined.

Lemma X11_all_nan_scores_report_no_drift_witness :
  Handlers.analyze_drift unit Sample.open_image
    (Sample.classifier (to_row Fixture.all_nan)) Sample.recommend (Sample.jpeg Predict)
  = RetStr "Good news, no cognitive drift recognized!"
  /\ Handlers.backup_analysis unit Sample.open_image
       (Sample.classifier (to_row Fixture.all_nan)) (Sample.jpeg Predict)
     = RetStr "Good news: no cognitive drift recognized!".
Proof.
  apply (X11_all_nan_scores_report_no_drift unit Sample.open_image
           (Sample.classifier (to_row Fixture.all_nan)) Sample.recommend
           (Sample.jpeg Predict) tt Fixture.all_nan []);
    reflexivity.
Defined.

Lemma X12_thresholds_are_exclusive_witness :
  Handlers.backup_analysis unit Sample.open_image
    (Sample.classifier (to_row Fixture.on_thresholds)) (Sample.jpeg Backup)
  = RetStr (backup_message NoDrift).
Proof.
  destruct (X12_thresholds_are_exclusive unit Sample.open_image
              (Sample.classifier (to_row Fixture.on_thresholds)) (Sample.jpeg Backup)
              tt Fixture.on_thresholds [] eq_refl eq_refl)
    as (_ & _ & _ & _ & Hall).
  apply Hall; reflexivity.
Defined.
